(** * fiftyone.core.odm: dataset and evaluation documents

    A shallow embedding of [fiftyone/core/odm/dataset.py] and
    [fiftyone/core/odm/evaluation.py], and the properties of the schema
    projections ([SampleFieldDocument]) and of the two container documents
    ([DatasetDocument], [EvaluationDocument]).

    Python exceptions are threaded through an error monad, attribute
    dictionaries are finite maps with string keys, and a schema (a Python
    dict, iterated in insertion order) is an association list. *)

From Stdlib Require Import String.
From stdpp Require Import base option list gmap strings fin_maps.

Open Scope string_scope.
Open Scope list_scope.
Set Warnings "-register-all".

(** ** Exceptions and the error monad *)

(** The exceptions this slice can see.  [AttributeError a]: attribute [a]
    was looked up on an object that does not have it.  [NotUniqueError k]:
    the store refused a document whose unique field [k] is already taken. *)
Inductive exception : Type :=
| AttributeError (attr : string)
| NotUniqueError (key : string).

Inductive result (A : Type) : Type :=
| Ok (a : A)
| Raise (e : exception).
Arguments Ok {A} a.
Arguments Raise {A} e.

#[global] Instance result_ret : MRet result := fun A a => Ok a.
#[global] Instance result_bind : MBind result := fun A B k m =>
  match m with
  | Ok a => k a
  | Raise e => Raise e
  end.

Definition returns {A} (m : result A) : Prop := exists a, m = Ok a.
Definition raises {A} (m : result A) : Prop := exists e, m = Raise e.

(** ** Python objects *)

(** A class, known by its module and its name. *)
Record class_ref : Type := Class { cls_module : string; cls_name : string }.

#[global] Instance class_ref_eq_dec : EqDecision class_ref.
Proof. solve_decision. Defined.

(** The objects a field descriptor's attributes can hold: [None], a string,
    a class object, or another field descriptor.  A field descriptor
    ([fiftyone.core.fields.Field]) has its runtime class, its [name] (a
    string, or [None] while the field is unbound) and a dictionary of
    further instance attributes ([field], [document_type], ...). *)
Inductive pyobj : Type :=
| PyNone
| PyStr (s : string)
| PyClass (c : class_ref)
| PyObj (f : Field)
with Field : Type :=
| mkField (field_class : class_ref) (field_name : option string)
          (field_attrs : gmap string pyobj).

Definition field_class (f : Field) : class_ref :=
  let 'mkField c _ _ := f in c.
Definition field_name (f : Field) : option string :=
  let 'mkField _ n _ := f in n.
Definition field_attrs (f : Field) : gmap string pyobj :=
  let 'mkField _ _ a := f in a.

(** [bool(s)] for a string: false on the empty string only. *)
Definition nonempty (s : string) : bool :=
  match s with
  | EmptyString => false
  | String _ _ => true
  end.

(** [bool(o)]: [None] and the empty string are falsy; classes and field
    instances define neither [__bool__] nor [__len__] and are truthy. *)
Definition truthy (o : pyobj) : bool :=
  match o with
  | PyNone => false
  | PyStr s => nonempty s
  | PyClass _ => true
  | PyObj _ => true
  end.

(** [field.attr_name]: raises [AttributeError] when the attribute is missing. *)
Definition getattr (field : Field) (attr_name : string) : result pyobj :=
  match field_attrs field !! attr_name with
  | Some v => Ok v
  | None => Raise (AttributeError attr_name)
  end.

(** [getattr(field, attr_name, default)]. *)
Definition getattr_default (field : Field) (attr_name : string)
    (default : pyobj) : pyobj :=
  match field_attrs field !! attr_name with
  | Some v => v
  | None => default
  end.

(** A value of a [StringField] slot, or a field's [name]: a [str] or [None]. *)
Abbreviation pystr := (option string).

(** [bool(s)] for such a value. *)
Definition truthy_str (s : pystr) : bool :=
  match s with
  | None => false
  | Some s => nonempty s
  end.

(** [a != b] for such values. *)
Definition ne (a b : pystr) : bool := negb (bool_decide (a = b)).

(** The fully-qualified name of a class: module, dot, class name. *)
Definition qualified_name (c : class_ref) : string :=
  cls_module c +:+ "." +:+ cls_name c.

Module etau.

(** Modelled from the spec: [eta.core.utils.get_class_name], a function of
    the eta library that [src/] calls but does not hold: the
    fully-qualified class name of a class object, or of the class of an
    instance.  It dereferences its argument's type: [None] and strings
    carry no [__module__], and the call raises [AttributeError]. *)
Definition get_class_name (cls_or_obj : pyobj) : result string :=
  match cls_or_obj with
  | PyClass c => Ok (qualified_name c)
  | PyObj f => Ok (qualified_name (field_class f))
  | PyNone | PyStr _ => Raise (AttributeError "__module__")
  end.

End etau.

(** ** SampleFieldDocument *)

Module SampleFieldDocument.

(** Four [StringField] slots; each holds a string or [None]. *)
Record t : Type := mk {
  name : pystr;
  ftype : pystr;
  subfield : pystr;
  embedded_doc_type : pystr
}.

#[global] Instance t_eq_dec : EqDecision t.
Proof. solve_decision. Defined.

Definition _get_attr_repr (field : Field) (attr_name : string)
    : result pystr :=
  let attr := getattr_default field attr_name PyNone in
  if truthy attr then c ← etau.get_class_name attr; Ok (Some c)
  else Ok None.

(** The keyword arguments of [cls(...)] are evaluated in the order they
    are written. *)
Definition from_field (field : Field) : result t :=
  let n := field_name field in
  c ← etau.get_class_name (PyObj field);
  s ← _get_attr_repr field "field";
  e ← _get_attr_repr field "document_type";
  Ok (mk n (Some c) s e).

(** The comprehension
    [[cls.from_field(field) for field in values if field.name != "id"]]:
    one pass, the test and the call interleaved, the first exception
    ending it. *)
Fixpoint from_fields (values : list Field) : result (list t) :=
  match values with
  | [] => Ok []
  | field :: rest =>
      if ne (field_name field) (Some "id") then
        p ← from_field field;
        ps ← from_fields rest;
        Ok (p :: ps)
      else from_fields rest
  end.

(** [d] is a dict from names to field descriptors, in insertion order;
    [d.values()] are its second components. *)
Definition list_from_field_schema (d : list (string * Field))
    : result (list t) :=
  from_fields (d.*2).

(** [x and y] yields [x] when [x] is falsy, so each guarded comparison is
    evaluated, attribute access included, only for a truthy slot. *)
Definition matches_field (self : t) (field : Field) : result bool :=
  if ne (name self) (field_name field) then Ok false else
  c ← etau.get_class_name (PyObj field);
  if ne (ftype self) (Some c) then Ok false else
  b ← (if truthy_str (subfield self) then
         a ← getattr field "field";
         c ← etau.get_class_name a;
         Ok (ne (subfield self) (Some c))
       else Ok false);
  if b : bool then Ok false else
  b ← (if truthy_str (embedded_doc_type self) then
         a ← getattr field "document_type";
         c ← etau.get_class_name a;
         Ok (ne (embedded_doc_type self) (Some c))
       else Ok false);
  if b : bool then Ok false else
  Ok true.

(** Functional updates of the two optional slots. *)
Definition with_subfield (s : pystr) (p : t) : t :=
  mk (name p) (ftype p) s (embedded_doc_type p).
Definition with_embedded_doc_type (e : pystr) (p : t) : t :=
  mk (name p) (ftype p) (subfield p) e.

End SampleFieldDocument.

(** *** Field descriptors as the data model has them *)

(** An object [get_class_name] can name: a class or an instance. *)
Definition has_class_name (o : pyobj) : bool :=
  match o with
  | PyClass _ | PyObj _ => true
  | PyNone | PyStr _ => false
  end.

(** Attribute [a] of [f] is missing, falsy, or an object with a class. *)
Definition attr_describable (f : Field) (a : string) : bool :=
  let v := getattr_default f a PyNone in
  negb (truthy v) || has_class_name v.

(** A Field Descriptor: its optional [field] is a nested descriptor and its
    optional [document_type] a type reference (or either is missing or
    falsy). *)
Definition field_descriptor (f : Field) : Prop :=
  attr_describable f "field" = true /\
  attr_describable f "document_type" = true.

(** Attribute [a] of [f] is missing, or present and falsy. *)
Definition missing_or_falsy (f : Field) (a : string) : Prop :=
  field_attrs f !! a = None \/
  exists v, field_attrs f !! a = Some v /\ truthy v = false.

(** Attribute [a] of [f] is there and holds a class or an instance. *)
Definition attr_has_class (f : Field) (a : string) : Prop :=
  exists v, field_attrs f !! a = Some v /\ has_class_name v = true.

(** The entries of a schema that [list_from_field_schema] keeps. *)
Definition kept (d : list (string * Field)) : list Field :=
  filter (fun f => field_name f ≠ Some "id") (d.*2).

(** The guarded comparison of slot [s] with attribute [a] of [f] lets the
    match through: the slot is falsy, or the attribute is there and its
    class name is the slot's. *)
Definition slot_agrees (s : pystr) (f : Field) (a : string) : Prop :=
  truthy_str s = false \/
  exists v c, field_attrs f !! a = Some v /\
              etau.get_class_name v = Ok c /\ s = Some c.

(** Reading the class name of attribute [a] of [f] raises [e]: the
    attribute is missing, or [get_class_name] raises on it. *)
Definition attr_raises (f : Field) (a : string) (e : exception) : Prop :=
  (field_attrs f !! a = None /\ e = AttributeError a) \/
  exists v, field_attrs f !! a = Some v /\ etau.get_class_name v = Raise e.

(** ** Stored values *)

(** What a [DictField] or a [ListField] holds once serialised: null,
    booleans, integers, strings, lists, and mappings with string keys in
    insertion order. *)
Inductive value : Type :=
| VNull
| VBool (b : bool)
| VInt (n : Z)
| VStr (s : string)
| VList (l : list value)
| VDict (d : list (string * value)).

Abbreviation dict := (list (string * value)).

(** [d.get(k)]: the value under the first entry with key [k]. *)
Fixpoint dict_get (k : string) (d : dict) : option value :=
  match d with
  | [] => None
  | (k', v) :: rest => if String.eqb k k' then Some v else dict_get k rest
  end.

(** ** DatasetDocument *)

Module DatasetDocument.

(** A [TargetsField]: class ids to label strings. *)
Abbreviation targets := (gmap Z string).

(** [name] and [sample_collection_name] are declared [required=True]: a
    persisted document always carries a string there. *)
Record t : Type := mk {
  media_type : pystr;
  name : string;
  sample_collection_name : string;
  persistent : bool;
  info : dict;
  sample_fields : list SampleFieldDocument.t;
  default_targets : option targets;
  field_targets : gmap string targets;
  frame_fields : list SampleFieldDocument.t;
  version : pystr
}.

(** [meta = {"collection": "datasets"}] *)
Definition collection : string := "datasets".

(** The fields declared [unique=True], in declaration order. *)
Definition unique_fields : list (string * (t -> string)) :=
  [("name", name); ("sample_collection_name", sample_collection_name)].

(** A fresh document: the declared defaults around the required fields. *)
Definition new (name sample_collection_name : string) : t :=
  mk None name sample_collection_name false [] [] None ∅ [] None.

(** Modelled from the spec: the document store behind [Document]
    ([fiftyone/core/odm/document.py] and the database driver, not in
    [src/]).  A collection is the list of its documents; the store
    enforces the declared uniqueness constraints on creation and rejects
    the document with a uniqueness-violation error, leaving the
    collection as it was. *)
Definition taken (db : list t) (key : t -> string) (doc : t) : bool :=
  bool_decide (key doc ∈ key <$> db).

(** Modelled from the spec: the uniqueness check of the store, one declared
    constraint after the other; the error names the first field that
    collides. *)
Fixpoint check_unique (db : list t) (keys : list (string * (t -> string)))
    (doc : t) : result unit :=
  match keys with
  | [] => Ok ()
  | (k, key) :: rest =>
      if taken db key doc then Raise (NotUniqueError k)
      else check_unique db rest doc
  end.

(** Modelled from the spec: creation of one document, atomic; called once
    by this layer, its error surfacing unchanged. *)
Definition create (db : list t) (doc : t) : result (list t) :=
  _ ← check_unique db unique_fields doc;
  Ok (db ++ [doc]).

(** Modelled from the spec: deletion of the dataset called [n]. *)
Definition delete (db : list t) (n : string) : list t :=
  filter (fun d => name d ≠ n) db.

(** Modelled from the spec: the collections the store can be in, empty at
    first, then changed by successful creations and by deletions. *)
Inductive reachable : list t -> Prop :=
| reachable_empty : reachable []
| reachable_create db doc db' :
    reachable db -> create db doc = Ok db' -> reachable db'
| reachable_delete db n :
    reachable db -> reachable (delete db n).

End DatasetDocument.

(** ** EvaluationDocument *)

Module EvaluationDocument.

(** [view = ListField(DictField())]: a list of stage mappings. *)
Record t : Type := mk {
  name : pystr;
  gt_field : pystr;
  pred_field : pystr;
  config : dict;
  view : list dict
}.

(** Modelled from the spec: serialisation of an embedded document
    ([EmbeddedDocument] of [fiftyone/core/odm/document.py], not in
    [src/]) to the persisted layout: a mapping from the declared field names
    to the stored values, a string slot left out when it is [None]. *)
Definition put_str (k : string) (s : pystr) (doc : dict) : dict :=
  match s with
  | Some s => (k, VStr s) :: doc
  | None => doc
  end.

(** Modelled from the spec: the persisted layout of an evaluation record,
    [{name, gt_field, pred_field, config, view: [...]}], the view stored as
    the list of its stage mappings. *)
Definition to_dict (e : t) : dict :=
  put_str "name" (name e)
    (put_str "gt_field" (gt_field e)
       (put_str "pred_field" (pred_field e)
          [("config", VDict (config e));
           ("view", VList (VDict <$> view e))])).

(** Modelled from the spec: reading a string slot back from the persisted
    layout; [None] when the stored value is not of the declared type. *)
Definition get_str (k : string) (doc : dict) : option pystr :=
  match dict_get k doc with
  | None | Some VNull => Some None
  | Some (VStr s) => Some (Some s)
  | Some _ => None
  end.

(** Modelled from the spec: a stored value read as a [DictField]. *)
Definition as_dict (v : value) : option dict :=
  match v with
  | VDict d => Some d
  | _ => None
  end.

(** Modelled from the spec: reading a [DictField] slot back; the declared
    default when the key is not stored. *)
Definition get_dict (k : string) (doc : dict) : option dict :=
  match dict_get k doc with
  | None => Some []
  | Some v => as_dict v
  end.

(** Modelled from the spec: reading a [ListField(DictField())] slot back,
    element by element and in order. *)
Definition get_dict_list (k : string) (doc : dict) : option (list dict) :=
  match dict_get k doc with
  | None => Some []
  | Some (VList l) => mapM as_dict l
  | Some _ => None
  end.

(** Modelled from the spec: deserialisation of an evaluation record from
    its persisted layout. *)
Definition from_dict (doc : dict) : option t :=
  n ← get_str "name" doc;
  g ← get_str "gt_field" doc;
  p ← get_str "pred_field" doc;
  c ← get_dict "config" doc;
  v ← get_dict_list "view" doc;
  Some (mk n g p c v).

End EvaluationDocument.

(** ** Sample descriptors and projections *)

Module Samples.

Definition fields (n : string) : class_ref := Class "fiftyone.core.fields" n.

(** [StringField()] and [IntField()], not bound to a document. *)
Definition string_field : Field := mkField (fields "StringField") None ∅.
Definition int_field : Field := mkField (fields "IntField") None ∅.

(** [filepath = StringField()] and the [id] field of a sample. *)
Definition filepath : Field :=
  mkField (fields "StringField") (Some "filepath") ∅.
Definition id_field : Field :=
  mkField (fields "ObjectIdField") (Some "id") ∅.

(** [tags = ListField(StringField())], [tags = ListField(IntField())] and
    the untyped [tags = ListField()], whose [field] is [None]. *)
Definition tags_of_strings : Field :=
  mkField (fields "ListField") (Some "tags") {["field" := PyObj string_field]}.
Definition tags_of_ints : Field :=
  mkField (fields "ListField") (Some "tags") {["field" := PyObj int_field]}.
Definition tags_untyped : Field :=
  mkField (fields "ListField") (Some "tags") {["field" := PyNone]}.

(** [ground_truth = EmbeddedDocumentField(Detections)] *)
Definition ground_truth : Field :=
  mkField (fields "EmbeddedDocumentField") (Some "ground_truth")
    {["document_type" := PyClass (Class "fiftyone.core.labels" "Detections")]}.

(** The projection [{name: "tags", ftype: ListField}]. *)
Definition tags_any : SampleFieldDocument.t :=
  SampleFieldDocument.mk (Some "tags")
    (Some "fiftyone.core.fields.ListField") None None.

(** The projection [{name: "tags", ftype: ListField, subfield: StringField}]. *)
Definition tags_str : SampleFieldDocument.t :=
  SampleFieldDocument.mk (Some "tags")
    (Some "fiftyone.core.fields.ListField")
    (Some "fiftyone.core.fields.StringField") None.

(** A projection of a string field that carries a subfield. *)
Definition filepath_sub : SampleFieldDocument.t :=
  SampleFieldDocument.mk (Some "filepath")
    (Some "fiftyone.core.fields.StringField")
    (Some "fiftyone.core.fields.StringField") None.

(** A schema whose keys disagree with the names of its descriptors. *)
Definition crossed_schema : list (string * Field) :=
  [("id", filepath); ("tags", tags_of_strings); ("filepath", id_field)].

(** A schema as [get_field_schema] returns it. *)
Definition schema : list (string * Field) :=
  [("id", id_field); ("filepath", filepath); ("tags", tags_of_strings);
   ("ground_truth", ground_truth)].

End Samples.

(** ** fiftyone.utils.transformers *)

Module transformers.

(** *** Python string operations *)

(** [sub in s] *)
Fixpoint contains (sub s : string) : bool :=
  String.prefix sub s ||
  match s with
  | EmptyString => false
  | String _ s' => contains sub s'
  end.

(** [s.split(sep)] for a non-empty [sep], scanning from the left: the piece
    being read and the pieces after it.  [skip] counts the characters of a
    separator just found that are still to be passed over. *)
Fixpoint split_go (sep : string) (skip : nat) (s : string)
    : string * list string :=
  match s with
  | EmptyString => (EmptyString, [])
  | String a s' =>
      match skip with
      | S k => split_go sep k s'
      | O =>
          if String.prefix sep s then
            let '(p, ps) := split_go sep (String.length sep - 1) s' in
            (EmptyString, p :: ps)
          else
            let '(p, ps) := split_go sep 0 s' in
            (String a p, ps)
      end
  end.

Definition split (sep s : string) : list string :=
  let '(p, ps) := split_go sep 0 s in p :: ps.

(** [l[0]] and [l[-1]] on the result of a split, which is never empty. *)
Definition first (l : list string) : string := hd EmptyString l.
Definition last (l : list string) : string := List.last l EmptyString.

(** [s[:-2]] *)
Definition drop_last2 (s : string) : string :=
  substring 0 (String.length s - 2) s.

(** [s.replace(old, new)] for a non-empty [old]: the occurrences of [old]
    are replaced from the left, without overlap. *)
Fixpoint replace_go (old new : string) (skip : nat) (s : string) : string :=
  match s with
  | EmptyString => EmptyString
  | String a s' =>
      match skip with
      | S k => replace_go old new k s'
      | O =>
          if String.prefix old s then
            new +:+ replace_go old new (String.length old - 1) s'
          else String a (replace_go old new 0 s')
      end
  end.

Definition replace (old new s : string) : string := replace_go old new 0 s.

(** *** Errors *)

(** [ValueError] of the dispatcher, an exception of the language
    ([AttributeError] of a module lookup), or an error of the model hub. *)
Inductive error : Type :=
| ValueError (msg : string)
| Builtin (e : exception)
| HubError (msg : string).

Inductive res (A : Type) : Type :=
| Return (a : A)
| Fail (e : error).
Arguments Return {A} a.
Arguments Fail {A} e.

#[global] Instance res_ret : MRet res := fun A a => Return a.
#[global] Instance res_bind : MBind res := fun A B k m =>
  match m with
  | Return a => k a
  | Fail e => Fail e
  end.

(** *** The wrapper classes *)

Inductive wrapper_class : Type :=
| FiftyOneTransformer
| FiftyOneTransformerForImageClassification
| FiftyOneTransformerForObjectDetection
| FiftyOneTransformerForSemanticSegmentation.

Section with_hub.

(** Model objects of the hub, image processors, and [id2label] mappings. *)
Context {Model Processor Labels : Type}.

(** [str(type(model))] and [str(model)] *)
Variable type_str : Model -> string.
Variable model_str : Model -> string.

(** [model.config.id2label] *)
Variable id2label : Model -> Labels.

(** The [from_pretrained] of the [AutoModel] class a wrapper class loads
    with, on [config.name_or_path]. *)
Variable from_pretrained : wrapper_class -> pystr -> res Model.

(** [transformers.AutoImageProcessor.from_pretrained(model.config._name_or_path)] *)
Variable AutoImageProcessor_from_pretrained : Model -> res Processor.

(** The names the [transformers] module has as attributes, and
    [processor_class.from_pretrained(model.config.model_name_or_path)] for
    the class of a given name. *)
Variable namespace : gset string.
Variable processor_from_pretrained : string -> Model -> res Processor.

Definition _get_model_type_string (model : Model) : string :=
  drop_last2 (last (split "." (type_str model))).

Definition _is_transformer_for_image_classification (model : Model) : bool :=
  contains "ForImageClassification" (_get_model_type_string model).

Definition _is_transformer_for_object_detection (model : Model) : bool :=
  contains "ForObjectDetection" (_get_model_type_string model).

Definition _is_transformer_for_semantic_segmentation (model : Model) : bool :=
  let ms := _get_model_type_string model in
  contains "For" ms && contains "Segmentation" ms.

Definition _is_transformer_base_model (model : Model) : bool :=
  let model_type := _get_model_type_string model in
  contains "Model" model_type && negb (contains "For" model_type).

Definition _get_image_processor_fallback (model : Model) : res Processor :=
  let model_name :=
    first (split "For" (drop_last2 (last (split "." (type_str model))))) in
  let processor_class_name := model_name +:+ "ImageProcessor" in
  if bool_decide (processor_class_name ∈ namespace) then
    processor_from_pretrained processor_class_name model
  else Fail (Builtin (AttributeError processor_class_name)).

(** The bare [except:] takes every exception of the first attempt. *)
Definition _get_image_processor (model : Model) : res Processor :=
  match AutoImageProcessor_from_pretrained model with
  | Return image_processor => Return image_processor
  | Fail _ => _get_image_processor_fallback model
  end.

(** [FiftyOneTransformerConfig]: [model] and [name_or_path], each [None] by
    default. *)
Record FiftyOneTransformerConfig : Type := mkConfig {
  config_model : option Model;
  name_or_path : pystr
}.

(** [FiftyOneTransformerConfig({"model": model})] *)
Definition config_of_model (model : Model) : FiftyOneTransformerConfig :=
  mkConfig (Some model) None.

(** An instance of a wrapper class; [mask_targets] is set by the
    segmentation wrapper only. *)
Record wrapper : Type := mkWrapper {
  cls : wrapper_class;
  config : FiftyOneTransformerConfig;
  model : Model;
  image_processor : Processor;
  mask_targets : option Labels
}.

(** [_load_model] as each class defines it: the model of the configuration
    when there is one, else the pretrained model of that name; the
    segmentation wrapper also records the model's labels. *)
Definition _load_model (c : wrapper_class)
    (config : FiftyOneTransformerConfig) : res (Model * option Labels) :=
  model ← match config_model config with
          | Some model => Return model
          | None => from_pretrained c (name_or_path config)
          end;
  match c with
  | FiftyOneTransformerForSemanticSegmentation =>
      Return (model, Some (id2label model))
  | _ => Return (model, None)
  end.

(** [__init__]: the configuration, the model, then the image processor. *)
Definition init (c : wrapper_class) (config : FiftyOneTransformerConfig)
    : res wrapper :=
  '(model, targets) ← _load_model c config;
  image_processor ← _get_image_processor model;
  Return (mkWrapper c config model image_processor targets).

Definition _convert_transformer_base_model (model : Model) : res wrapper :=
  init FiftyOneTransformer (config_of_model model).

Definition _convert_transformer_for_image_classification (model : Model)
    : res wrapper :=
  init FiftyOneTransformerForImageClassification (config_of_model model).

Definition _convert_transformer_for_object_detection (model : Model)
    : res wrapper :=
  init FiftyOneTransformerForObjectDetection (config_of_model model).

Definition _convert_transformer_for_semantic_segmentation (model : Model)
    : res wrapper :=
  init FiftyOneTransformerForSemanticSegmentation (config_of_model model).

Definition convert_transformers_model (model : Model) : res wrapper :=
  if _is_transformer_for_image_classification model then
    _convert_transformer_for_image_classification model
  else if _is_transformer_for_object_detection model then
    _convert_transformer_for_object_detection model
  else if _is_transformer_for_semantic_segmentation model then
    _convert_transformer_for_semantic_segmentation model
  else if _is_transformer_base_model model then
    _convert_transformer_base_model model
  else
    Fail (ValueError ("Unsupported model type; cannot convert "
                      +:+ model_str model +:+ " to a FiftyOne model")).

(** [TransformerEmbeddingsMixin.has_embeddings] *)
Definition has_embeddings (self : wrapper) : bool :=
  let smodel := split "." (type_str (model self)) in
  let model_name :=
    replace "Model" EmptyString
      (first (split "For" (drop_last2 (last smodel)))) in
  let classif_model_name := model_name +:+ "ForImageClassification" in
  let detection_model_name := model_name +:+ "ForObjectDetection" in
  bool_decide (classif_model_name ∈ namespace) ||
  bool_decide (detection_model_name ∈ namespace).

End with_hub.

(** A hub for examples: a model is its type string, its processor a class
    name; [AutoImageProcessor] knows the ViT models only. *)
Module Samples.

Definition vit_model : string :=
  "<class 'transformers.models.vit.modeling_vit.ViTModel'>".
Definition vit_classifier : string :=
  "<class 'transformers.models.vit.modeling_vit.ViTForImageClassification'>".
Definition maskformer_model : string :=
  "<class 'transformers.models.maskformer.modeling_maskformer.MaskFormerModel'>".
Definition detr_detector : string :=
  "<class 'transformers.models.detr.modeling_detr.DetrForObjectDetection'>".

Definition names : gset string :=
  {["ViTModel"; "ViTForImageClassification"; "ViTImageProcessor";
    "MaskFormerModel"; "MaskFormerForInstanceSegmentation";
    "MaskFormerImageProcessor"]}.

Definition auto (m : string) : res string :=
  if contains "ViT" m then Return "ViTImageProcessor"
  else Fail (HubError "no preprocessor_config.json").

Definition no_model (c : wrapper_class) (n : pystr) : res string :=
  Fail (HubError "offline").

Definition load (n : string) (m : string) : res string := Return n.

Definition convert : string -> res (@wrapper string string unit) :=
  convert_transformers_model id id (fun _ => ()) no_model auto names load.

(** The wrapper of [vit_model]. *)
Definition vit_wrapper : @wrapper string string unit :=
  mkWrapper FiftyOneTransformer (config_of_model vit_model) vit_model
    "ViTImageProcessor" None.

End Samples.

End transformers.

(** * Properties *)

(** ** The error monad and Python comparisons *)

Lemma ne_refl (a : pystr) : ne a a = false.
Proof. unfold ne. by rewrite bool_decide_eq_true_2. Qed.

Lemma ne_true (a b : pystr) : ne a b = true <-> a ≠ b.
Proof.
  unfold ne. rewrite negb_true_iff, bool_decide_eq_false. done.
Qed.

Lemma ne_false (a b : pystr) : ne a b = false <-> a = b.
Proof.
  unfold ne. rewrite negb_false_iff, bool_decide_eq_true. done.
Qed.

Lemma truthy_str_empty : truthy_str (Some EmptyString) = false.
Proof. reflexivity. Qed.

Lemma truthy_str_true (s : pystr) :
  truthy_str s = true <-> exists c, s = Some c /\ c ≠ EmptyString.
Proof.
  destruct s as [c|]; simpl.
  - split.
    + intros H. exists c. split; [done|]. by intros ->.
    + intros (c' & [= <-] & H). by destruct c.
  - split; [done | by intros (c & ? & _)].
Qed.

Lemma has_class_name_returns (o : pyobj) :
  has_class_name o = true ->
  exists c, etau.get_class_name o = Ok c.
Proof. destruct o; simpl; intros H; try done; eauto. Qed.

(** ** SampleFieldDocument *)

Section SampleFieldDocument_properties.

Import SampleFieldDocument.

Lemma get_attr_repr_describable (f : Field) (a : string) :
  attr_describable f a = true ->
  exists s, _get_attr_repr f a = Ok s.
Proof.
  unfold attr_describable, _get_attr_repr. simpl.
  destruct (truthy (getattr_default f a PyNone)) eqn:Ht; simpl.
  - intros H. destruct (has_class_name_returns _ H) as [c ->]. simpl. eauto.
  - eauto.
Qed.

(** A descriptor of the data model always has a projection. *)
Lemma from_field_returns (f : Field) :
  field_descriptor f -> returns (from_field f).
Proof.
  intros [Hf Hd]. unfold from_field, returns. simpl.
  destruct (get_attr_repr_describable _ _ Hf) as [s ->].
  destruct (get_attr_repr_describable _ _ Hd) as [e ->].
  simpl. eauto.
Qed.

(** What [_get_attr_repr] returns is the empty marker, or the class name
    of an attribute that is there. *)
Lemma get_attr_repr_inv (f : Field) (a : string) (s : pystr) :
  _get_attr_repr f a = Ok s ->
  truthy_str s = true ->
  exists v c, field_attrs f !! a = Some v /\
              etau.get_class_name v = Ok c /\ s = Some c.
Proof.
  unfold _get_attr_repr, getattr_default. simpl.
  destruct (field_attrs f !! a) as [v|] eqn:Hv; simpl.
  - destruct (truthy v); simpl.
    + destruct (etau.get_class_name v) as [c|] eqn:Hc; simpl; [|done].
      intros [= <-] _. eauto.
    + intros [= <-]. done.
  - intros [= <-]. done.
Qed.

(** The guarded comparison of one optional slot passes on the slot that
    [_get_attr_repr] computed from the same descriptor. *)
Lemma guarded_check_passes (f : Field) (a : string) (s : pystr) :
  _get_attr_repr f a = Ok s ->
  (if truthy_str s then
     v ← getattr f a; c ← etau.get_class_name v; Ok (ne s (Some c))
   else Ok false) = Ok false.
Proof.
  intros Hs. destruct (truthy_str s) eqn:Ht; [|done].
  destruct (get_attr_repr_inv _ _ _ Hs Ht) as (v & c & Hv & Hc & ->).
  unfold getattr. rewrite Hv. simpl. rewrite Hc. simpl.
  by rewrite ne_refl.
Qed.

Lemma from_field_matches (f : Field) (p : t) :
  from_field f = Ok p -> matches_field p f = Ok true.
Proof.
  unfold from_field. simpl.
  destruct (_get_attr_repr f "field") as [s|] eqn:Hs; simpl; [|done].
  destruct (_get_attr_repr f "document_type") as [e|] eqn:He; simpl; [|done].
  intros [= <-]. unfold matches_field. simpl.
  rewrite !ne_refl. simpl.
  rewrite (guarded_check_passes _ _ _ Hs). simpl.
  rewrite (guarded_check_passes _ _ _ He). done.
Qed.

(** C1: for every Field Descriptor [f], [from_field f] returns a projection
    and [matches_field] of that projection on [f] returns [True]. *)
Theorem from_field_matches_field (f : Field) :
  field_descriptor f ->
  exists p, from_field f = Ok p /\ matches_field p f = Ok true.
Proof.
  intros Hf. destruct (from_field_returns f Hf) as [p Hp].
  exists p. split; [done | by apply from_field_matches].
Qed.

Lemma from_field_matches_field_witness :
  field_descriptor Samples.tags_of_strings /\
  exists p, from_field Samples.tags_of_strings = Ok p /\
            matches_field p Samples.tags_of_strings = Ok true.
Proof.
  assert (H : field_descriptor Samples.tags_of_strings)
    by (split; vm_compute; reflexivity).
  split; [exact H | exact (from_field_matches_field _ H)].
Defined.

(** *** Exceptions in [matches_field] *)

(** C2 as stated fails: a projection of a string field that carries a
    subfield, matched against the string field it is named after, reaches
    [field.field] and raises [AttributeError]. *)
Lemma matches_field_raises :
  matches_field Samples.filepath_sub Samples.filepath
    = Raise (AttributeError "field") /\
  ~ (forall p f, returns (matches_field p f)).
Proof.
  assert (H : matches_field Samples.filepath_sub Samples.filepath
              = Raise (AttributeError "field")) by (vm_compute; reflexivity).
  split; [exact H|].
  intros Hall. destruct (Hall Samples.filepath_sub Samples.filepath) as [b Hb].
  rewrite H in Hb. discriminate.
Qed.

(** The same on a list field declared without an element type: [field.field]
    is [None], which [get_class_name] cannot name. *)
Example matches_field_untyped_list_raises :
  raises (matches_field Samples.tags_str Samples.tags_untyped).
Proof. eexists. vm_compute. reflexivity. Qed.

Lemma guarded_check_returns (f : Field) (a : string) (s : pystr) :
  (truthy_str s = true -> attr_has_class f a) ->
  exists b : bool,
    (if truthy_str s then
       v ← getattr f a; c ← etau.get_class_name v; Ok (ne s (Some c))
     else Ok false) = Ok b.
Proof.
  intros H. destruct (truthy_str s); [|eauto].
  destruct (H eq_refl) as (v & Hv & Hc).
  destruct (has_class_name_returns _ Hc) as [c Hn].
  unfold getattr. rewrite Hv. simpl. rewrite Hn. simpl. eauto.
Qed.

(** When both optional slots are absent or empty, the answer is the
    comparison of names and types and nothing else is evaluated. *)
Lemma matches_field_unset (p : t) (f : Field) :
  truthy_str (subfield p) = false ->
  truthy_str (embedded_doc_type p) = false ->
  matches_field p f
  = Ok (negb (ne (name p) (field_name f)) &&
        negb (ne (ftype p) (Some (qualified_name (field_class f))))).
Proof.
  intros Hs He. unfold matches_field. simpl.
  destruct (ne (name p) (field_name f)); [done|].
  destruct (ne (ftype p) _); [done|].
  rewrite Hs, He. done.
Qed.

(** C2, amended: [matches_field] returns a boolean whenever each optional
    slot that is set on the projection finds its attribute ([field],
    [document_type]) on the descriptor, holding a class or an instance; when
    the optional slots are absent their checks are skipped and count as a
    match, the answer being decided by name and type alone. *)
Theorem matches_field_returns (p : t) (f : Field) :
  (truthy_str (subfield p) = true -> attr_has_class f "field") ->
  (truthy_str (embedded_doc_type p) = true ->
   attr_has_class f "document_type") ->
  returns (matches_field p f) /\
  (subfield p = None -> embedded_doc_type p = None ->
   matches_field p f
   = Ok (negb (ne (name p) (field_name f)) &&
         negb (ne (ftype p) (Some (qualified_name (field_class f)))))).
Proof.
  intros Hs He. split.
  - unfold returns, matches_field. simpl.
    destruct (ne (name p) (field_name f)); [eauto|].
    destruct (ne (ftype p) _); [eauto|].
    destruct (guarded_check_returns f "field" _ Hs) as [b1 ->]. simpl.
    destruct b1; [eauto|].
    destruct (guarded_check_returns f "document_type" _ He) as [b2 ->]. simpl.
    destruct b2; eauto.
  - intros Hs' He'. apply matches_field_unset.
    + by rewrite Hs'.
    + by rewrite He'.
Qed.

Lemma matches_field_returns_witness :
  returns (matches_field Samples.tags_str Samples.tags_of_ints) /\
  matches_field Samples.tags_any Samples.tags_untyped = Ok true.
Proof.
  split.
  - apply (matches_field_returns Samples.tags_str Samples.tags_of_ints).
    + intros _. eexists. split; vm_compute; reflexivity.
    + simpl. discriminate.
  - refine (proj2 (matches_field_returns Samples.tags_any Samples.tags_untyped
                     _ _) eq_refl eq_refl); simpl; discriminate.
Defined.

(** *** Widening and narrowing *)

(** C4: a projection without subfield and embedded document type matches
    every descriptor of its name and type, whatever the descriptor's nested
    field or document type. *)
Theorem matches_field_widening (p : t) (f : Field) :
  name p = field_name f ->
  ftype p = Some (qualified_name (field_class f)) ->
  subfield p = None ->
  embedded_doc_type p = None ->
  matches_field p f = Ok true.
Proof.
  intros Hn Ht Hs He.
  rewrite matches_field_unset by (by rewrite ?Hs, ?He).
  by rewrite Hn, Ht, !ne_refl.
Qed.

Lemma matches_field_widening_witness :
  matches_field Samples.tags_any Samples.tags_of_strings = Ok true /\
  matches_field Samples.tags_any Samples.tags_of_ints = Ok true.
Proof.
  split.
  - apply (matches_field_widening Samples.tags_any Samples.tags_of_strings);
      reflexivity.
  - apply (matches_field_widening Samples.tags_any Samples.tags_of_ints);
      reflexivity.
Defined.

(** C5: a projection whose subfield is set (a non-empty string, what the
    guard [self.subfield and ...] tests) and differs from the class name of
    the descriptor's nested field does not match: [matches_field] returns
    [False], whether or not name and type agree. *)
Theorem matches_field_subfield_mismatch (p : t) (f : Field)
    (v : pyobj) (c : string) :
  field_attrs f !! "field" = Some v ->
  etau.get_class_name v = Ok c ->
  truthy_str (subfield p) = true ->
  subfield p ≠ Some c ->
  matches_field p f = Ok false.
Proof.
  intros Hv Hc Ht Hne. unfold matches_field. simpl.
  destruct (ne (name p) (field_name f)); [done|].
  destruct (ne (ftype p) _); [done|].
  rewrite Ht. unfold getattr. rewrite Hv. simpl. rewrite Hc. simpl.
  apply ne_true in Hne. by rewrite Hne.
Qed.

Lemma matches_field_subfield_mismatch_witness :
  matches_field Samples.tags_str Samples.tags_of_ints = Ok false.
Proof.
  apply (matches_field_subfield_mismatch Samples.tags_str Samples.tags_of_ints
           (PyObj Samples.int_field) "fiftyone.core.fields.IntField").
  - vm_compute. reflexivity.
  - reflexivity.
  - reflexivity.
  - simpl. discriminate.
Defined.

(** C8: an empty string in an optional slot is skipped by the guard exactly
    as [None] is, for the subfield, for the embedded document type, and for
    both at once; the outcome is the same, result or exception. *)
Theorem matches_field_empty_as_absent (p : t) (f : Field) :
  matches_field (with_subfield (Some EmptyString) p) f
  = matches_field (with_subfield None p) f /\
  matches_field (with_embedded_doc_type (Some EmptyString) p) f
  = matches_field (with_embedded_doc_type None p) f /\
  matches_field (with_subfield (Some EmptyString) (with_embedded_doc_type (Some EmptyString) p)) f
  = matches_field (with_subfield None (with_embedded_doc_type None p)) f.
Proof. repeat split; reflexivity. Qed.

(** *** Construction *)

Lemma get_attr_repr_missing_or_falsy (f : Field) (a : string) :
  missing_or_falsy f a -> _get_attr_repr f a = Ok None.
Proof.
  unfold _get_attr_repr, getattr_default. simpl.
  intros [-> | (v & -> & ->)]; reflexivity.
Qed.

(** C9: [from_field] leaves the subfield (the embedded document type) at
    [None] when the descriptor lacks [field] ([document_type]) and when the
    attribute is there but falsy; the other slot is computed as usual, and on
    a descriptor where both are missing or falsy [from_field] returns, with
    no attribute error. *)
Theorem from_field_missing_or_falsy (f : Field)
    (c := Some (qualified_name (field_class f))) :
  (forall a, missing_or_falsy f a -> _get_attr_repr f a = Ok None) /\
  (missing_or_falsy f "field" ->
   from_field f
   = e ← _get_attr_repr f "document_type"; Ok (mk (field_name f) c None e)) /\
  (missing_or_falsy f "document_type" ->
   from_field f
   = s ← _get_attr_repr f "field"; Ok (mk (field_name f) c s None)) /\
  (missing_or_falsy f "field" -> missing_or_falsy f "document_type" ->
   from_field f = Ok (mk (field_name f) c None None)).
Proof.
  simpl. split; [|split; [|split]].
  - intros a. apply get_attr_repr_missing_or_falsy.
  - intros Hf. unfold from_field. simpl.
    by rewrite (get_attr_repr_missing_or_falsy _ _ Hf).
  - intros Hd. unfold from_field. simpl.
    rewrite (get_attr_repr_missing_or_falsy _ _ Hd).
    by destruct (_get_attr_repr f "field").
  - intros Hf Hd. unfold from_field. simpl.
    by rewrite (get_attr_repr_missing_or_falsy _ _ Hf),
               (get_attr_repr_missing_or_falsy _ _ Hd).
Qed.

Lemma from_field_missing_or_falsy_witness :
  from_field Samples.filepath
  = Ok (mk (Some "filepath") (Some "fiftyone.core.fields.StringField")
          None None) /\
  from_field Samples.tags_untyped
  = Ok (mk (Some "tags") (Some "fiftyone.core.fields.ListField") None None).
Proof.
  split.
  - refine (proj2 (proj2 (proj2 (from_field_missing_or_falsy Samples.filepath)))
              _ _); left; vm_compute; reflexivity.
  - refine (proj2 (proj2 (proj2
              (from_field_missing_or_falsy Samples.tags_untyped))) _ _).
    + right. exists PyNone. split; vm_compute; reflexivity.
    + left. vm_compute. reflexivity.
Defined.

(** *** Schemas *)

Lemma from_field_name (f : Field) (p : t) :
  from_field f = Ok p -> name p = field_name f.
Proof.
  unfold from_field. simpl.
  destruct (_get_attr_repr f "field"); simpl; [|done].
  destruct (_get_attr_repr f "document_type"); simpl; [|done].
  by intros [= <-].
Qed.

(** The comprehension is the projection, in order, of the values that pass
    the test, and fails where the first of them fails. *)
Lemma from_fields_filter (vs : list Field) :
  from_fields vs
  = mapM from_field (filter (fun f => field_name f ≠ Some "id") vs).
Proof.
  induction vs as [|f vs IH]; [done|]. simpl.
  destruct (ne (field_name f) (Some "id")) eqn:Hne.
  - apply ne_true in Hne. rewrite filter_cons_True by done.
    simpl. by rewrite IH.
  - apply ne_false in Hne. rewrite filter_cons_False by (by intros []).
    done.
Qed.

Lemma mapM_from_field_returns (vs : list Field) :
  Forall field_descriptor vs ->
  exists l, mapM from_field vs = Ok l /\
            Forall2 (fun f p => from_field f = Ok p) vs l.
Proof.
  induction 1 as [|f vs Hf _ (l & Hl & Hall)].
  - exists []. by split.
  - destruct (from_field_returns f Hf) as [p Hp].
    exists (p :: l). simpl. rewrite Hp. simpl. rewrite Hl. simpl.
    split; [done | by constructor].
Qed.

(** Without an entry named ["id"], every value is kept. *)
Lemma kept_all (d : list (string * Field)) :
  Forall (fun kf => field_name kf.2 ≠ Some "id") d -> kept d = d.*2.
Proof.
  unfold kept. induction 1 as [|[k f] d Hf _ IH]; [done|].
  rewrite fmap_cons. simpl in Hf. rewrite filter_cons_True by done.
  by rewrite IH.
Qed.

(** C3: on a schema whose kept descriptors are well formed,
    [list_from_field_schema] returns one projection per entry whose name is
    not ["id"], in the iteration order of the mapping: the i-th projection
    is that of the i-th kept entry, and nothing is dropped when no entry is
    named ["id"]. *)
Theorem list_from_field_schema_kept (d : list (string * Field)) :
  Forall field_descriptor (kept d) ->
  exists l,
    list_from_field_schema d = Ok l /\
    Forall2 (fun f p => from_field f = Ok p) (kept d) l /\
    name <$> l = field_name <$> kept d /\
    (Forall (fun kf => field_name kf.2 ≠ Some "id") d ->
     length l = length d).
Proof.
  intros Hd. destruct (mapM_from_field_returns _ Hd) as (l & Hl & Hall).
  exists l. unfold list_from_field_schema. rewrite from_fields_filter.
  split; [exact Hl|]. split; [exact Hall|]. split.
  - clear Hl Hd. induction Hall as [|f p fs ps Hp _ IH]; [done|].
    by rewrite !fmap_cons, (from_field_name _ _ Hp), IH.
  - intros Hno. rewrite <- (Forall2_length _ _ _ Hall), (kept_all _ Hno).
    apply length_fmap.
Qed.

Lemma list_from_field_schema_kept_witness :
  exists l,
    list_from_field_schema Samples.schema = Ok l /\
    Forall2 (fun f p => from_field f = Ok p) (kept Samples.schema) l /\
    name <$> l = field_name <$> kept Samples.schema /\
    (Forall (fun kf => field_name kf.2 ≠ Some "id") Samples.schema ->
     length l = length Samples.schema).
Proof.
  apply (list_from_field_schema_kept Samples.schema).
  repeat constructor; vm_compute; reflexivity.
Defined.

Lemma from_fields_app (vs1 vs2 : list Field) :
  from_fields (vs1 ++ vs2)
  = l1 ← from_fields vs1; l2 ← from_fields vs2; Ok (l1 ++ l2).
Proof.
  induction vs1 as [|f vs1 IH]; simpl.
  - by destruct (from_fields vs2).
  - destruct (ne (field_name f) (Some "id")); [|exact IH].
    rewrite IH. destruct (from_field f); simpl; [|done].
    destruct (from_fields vs1); simpl; [|done].
    by destruct (from_fields vs2).
Qed.

(** C10: the test reads the descriptor's own [name], never the key it is
    stored under.  The key of an entry can be changed at will; an entry
    whose descriptor is not named ["id"] contributes its projection at its
    place, also under the key ["id"]; an entry whose descriptor is named
    ["id"] contributes nothing, under any key. *)
Theorem list_from_field_schema_by_name
    (d1 d2 : list (string * Field)) (k : string) (f : Field) :
  (forall k',
     list_from_field_schema (d1 ++ (k, f) :: d2)
     = list_from_field_schema (d1 ++ (k', f) :: d2)) /\
  (field_name f ≠ Some "id" ->
   list_from_field_schema (d1 ++ (k, f) :: d2)
   = l1 ← list_from_field_schema d1;
     p ← from_field f;
     l2 ← list_from_field_schema d2;
     Ok (l1 ++ p :: l2)) /\
  (field_name f = Some "id" ->
   list_from_field_schema (d1 ++ (k, f) :: d2)
   = list_from_field_schema (d1 ++ d2)).
Proof.
  unfold list_from_field_schema. rewrite !fmap_app, !fmap_cons. simpl.
  split; [|split].
  - intros k'. by rewrite !fmap_app, !fmap_cons.
  - intros Hne. apply ne_true in Hne.
    rewrite from_fields_app. simpl. rewrite Hne.
    destruct (from_fields (d1.*2)); simpl; [|done].
    destruct (from_field f); simpl; [|done].
    by destruct (from_fields (d2.*2)).
  - intros Hid. rewrite !from_fields_app. simpl.
    by rewrite Hid, ne_refl.
Qed.

Lemma list_from_field_schema_by_name_witness :
  list_from_field_schema Samples.crossed_schema
  = (l1 ← list_from_field_schema [];
     p ← from_field Samples.filepath;
     l2 ← list_from_field_schema
            [("tags", Samples.tags_of_strings);
             ("filepath", Samples.id_field)];
     Ok (l1 ++ p :: l2)) /\
  list_from_field_schema Samples.crossed_schema
  = list_from_field_schema
      ([("id", Samples.filepath); ("tags", Samples.tags_of_strings)] ++ []).
Proof.
  split.
  - refine (proj1 (proj2 (list_from_field_schema_by_name
              [] [("tags", Samples.tags_of_strings);
                  ("filepath", Samples.id_field)]
              "id" Samples.filepath)) _).
    simpl. discriminate.
  - refine (proj2 (proj2 (list_from_field_schema_by_name
              [("id", Samples.filepath); ("tags", Samples.tags_of_strings)] []
              "filepath" Samples.id_field)) _).
    reflexivity.
Defined.

(** On the crossed schema the entry under the key ["id"] is projected and
    the one whose descriptor is named ["id"] is not. *)
Example list_from_field_schema_crossed :
  list_from_field_schema Samples.crossed_schema
  = Ok [mk (Some "filepath") (Some "fiftyone.core.fields.StringField")
           None None;
        mk (Some "tags") (Some "fiftyone.core.fields.ListField")
           (Some "fiftyone.core.fields.StringField") None].
Proof. vm_compute. reflexivity. Qed.

End SampleFieldDocument_properties.

(** ** DatasetDocument *)

Section DatasetDocument_properties.

Import DatasetDocument.

(** Runs [create] down to the two membership tests. *)
Ltac run_create :=
  unfold create, unique_fields, check_unique, taken; simpl.

Lemma create_inv (db db' : list t) (doc : t) :
  create db doc = Ok db' ->
  db' = db ++ [doc] /\
  (name doc ∉ name <$> db) /\
  (sample_collection_name doc ∉ sample_collection_name <$> db).
Proof.
  run_create.
  case_bool_decide as Hn; simpl; [done|].
  case_bool_decide as Hc; simpl; [done|].
  by intros [= <-].
Qed.

Lemma create_name_taken (db : list t) (doc : t) :
  name doc ∈ name <$> db ->
  create db doc = Raise (NotUniqueError "name").
Proof.
  intros H. run_create.
  by rewrite bool_decide_eq_true_2.
Qed.

Lemma create_collection_taken (db : list t) (doc : t) :
  name doc ∉ name <$> db ->
  sample_collection_name doc ∈ sample_collection_name <$> db ->
  create db doc = Raise (NotUniqueError "sample_collection_name").
Proof.
  intros Hn Hc. run_create.
  by rewrite bool_decide_eq_false_2, bool_decide_eq_true_2.
Qed.

Lemma create_fresh (db : list t) (doc : t) :
  name doc ∉ name <$> db ->
  sample_collection_name doc ∉ sample_collection_name <$> db ->
  create db doc = Ok (db ++ [doc]).
Proof.
  intros Hn Hc. run_create.
  by rewrite !bool_decide_eq_false_2.
Qed.

Lemma NoDup_snoc_fmap {B} (key : t -> B) (db : list t) (doc : t) :
  NoDup (key <$> db) -> key doc ∉ key <$> db ->
  NoDup (key <$> db ++ [doc]).
Proof.
  intros Hdb Hdoc. rewrite fmap_app. apply NoDup_app.
  split; [done|]. split.
  - intros x Hx Hin. apply list_elem_of_singleton in Hin. by subst.
  - apply NoDup_singleton.
Qed.

(** Both declared constraints hold in every collection the store reaches. *)
Lemma reachable_unique (db : list t) :
  reachable db ->
  NoDup (name <$> db) /\ NoDup (sample_collection_name <$> db).
Proof.
  induction 1 as [|db doc db' _ [IHn IHc] Hc|db n _ [IHn IHc]].
  - split; constructor.
  - apply create_inv in Hc as (-> & Hn & Hs).
    split; by apply NoDup_snoc_fmap.
  - unfold delete. split.
    + eapply sublist_NoDup; [exact IHn|].
      apply fmap_sublist, sublist_filter.
    + eapply sublist_NoDup; [exact IHc|].
      apply fmap_sublist, sublist_filter.
Qed.

(** C6: of two records with the same name at most one is persisted.  Once
    the first is created it is in the collection; every collection that
    holds it answers the creation of the second with the store's uniqueness
    violation on [name]; and a collection never holds the two at different
    places. *)
Theorem create_same_name_fails (db : list t) (d1 d2 : t) :
  reachable db ->
  name d1 = name d2 ->
  (forall db1, create db d1 = Ok db1 ->
     d1 ∈ db1 /\ create db1 d2 = Raise (NotUniqueError "name")) /\
  (d1 ∈ db -> create db d2 = Raise (NotUniqueError "name")) /\
  (forall i j, db !! i = Some d1 -> db !! j = Some d2 -> i = j).
Proof.
  intros Hr Heq.
  assert (Hin : forall db', d1 ∈ db' ->
            create db' d2 = Raise (NotUniqueError "name")).
  { intros db' H. apply create_name_taken. rewrite <- Heq.
    by apply list_elem_of_fmap_2. }
  split; [|split].
  - intros db1 Hc. apply create_inv in Hc as (-> & _ & _).
    assert (d1 ∈ db ++ [d1]) by (apply elem_of_app; right; by left).
    split; [done | by apply Hin].
  - apply Hin.
  - intros i j Hi Hj. destruct (reachable_unique db Hr) as [Hn _].
    eapply NoDup_lookup; [exact Hn | |].
    + rewrite list_lookup_fmap, Hi. reflexivity.
    + rewrite list_lookup_fmap, Hj. simpl. by rewrite Heq.
Qed.

Lemma create_same_name_fails_witness :
  create [new "quickstart" "samples.1"] (new "quickstart" "samples.2")
  = Raise (NotUniqueError "name").
Proof.
  refine (proj2 (proj1 (create_same_name_fails []
            (new "quickstart" "samples.1") (new "quickstart" "samples.2")
            reachable_empty eq_refl) _ _)).
  vm_compute. reflexivity.
Defined.

End DatasetDocument_properties.

(** ** EvaluationDocument *)

Section EvaluationDocument_properties.

Import EvaluationDocument.

Lemma mapM_as_dict (l : list dict) : mapM as_dict (VDict <$> l) = Some l.
Proof.
  induction l as [|d l IH]; [done|].
  rewrite fmap_cons. simpl. by rewrite IH.
Qed.

Lemma to_dict_view (e : t) :
  dict_get "view" (to_dict e) = Some (VList (VDict <$> view e)).
Proof. by destruct e as [[n|] [g|] [p|] c v]. Qed.

Lemma from_dict_to_dict (e : t) : from_dict (to_dict e) = Some e.
Proof.
  destruct e as [n g p c v].
  unfold from_dict, get_dict_list. rewrite to_dict_view.
  rewrite mapM_as_dict.
  by destruct n, g, p.
Qed.

(** C7: the view is stored as the list of its stage mappings, and reading
    the stored document back gives a document with the same view: as many
    stages, each at its place, each with its content. *)
Theorem view_round_trip (e : t) :
  dict_get "view" (to_dict e) = Some (VList (VDict <$> view e)) /\
  exists e',
    from_dict (to_dict e) = Some e' /\
    view e' = view e /\
    length (view e') = length (view e) /\
    forall i, view e' !! i = view e !! i.
Proof.
  split; [apply to_dict_view|].
  exists e. by rewrite from_dict_to_dict.
Qed.

End EvaluationDocument_properties.

(** * Further properties *)

(** ** SampleFieldDocument: what a match means *)

Section SampleFieldDocument_matching.

Import SampleFieldDocument.

(** The three outcomes of one guarded comparison. *)
Lemma guarded_check_cases (f : Field) (a : string) (s : pystr) :
  let check :=
    (if truthy_str s then
       v ← getattr f a; c ← etau.get_class_name v; Ok (ne s (Some c))
     else Ok false) in
  (check = Ok false <-> slot_agrees s f a) /\
  (forall e, check = Raise e <-> truthy_str s = true /\ attr_raises f a e).
Proof.
  unfold slot_agrees, attr_raises, getattr. simpl.
  destruct (truthy_str s) eqn:Ht.
  - destruct (field_attrs f !! a) as [v|]; simpl.
    + destruct (etau.get_class_name v) as [c|e'] eqn:Hc; simpl.
      * split.
        -- split.
           ++ intros [= H]. apply ne_false in H. right. by exists v, c.
           ++ intros [|(v' & c' & [= <-] & Hc' & ->)]; [congruence|].
              rewrite Hc in Hc'. injection Hc' as ->. by rewrite ne_refl.
        -- intros e. split; [done|].
           intros [_ [[? _]|(v' & [= <-] & ?)]]; congruence.
      * split.
        -- split; [done|].
           intros [|(v' & c' & [= <-] & ? & _)]; congruence.
        -- intros e. split.
           ++ intros [= ->]. split; [done|]. right. by exists v.
           ++ intros [_ [[? _]|(v' & [= <-] & ?)]]; congruence.
    + split.
      * split; [done|]. intros [|(v' & c' & ? & _)]; congruence.
      * intros e. split.
        -- intros [= <-]. split; [done|]. by left.
        -- intros [_ [[_ ->]|(v' & ? & _)]]; done.
  - split.
    + split; [by left | done].
    + intros e. split; [done | by intros [? _]].
Qed.

Lemma matches_field_true_cases (p : t) (f : Field) :
  matches_field p f = Ok true <->
  name p = field_name f /\
  ftype p = Some (qualified_name (field_class f)) /\
  slot_agrees (subfield p) f "field" /\
  slot_agrees (embedded_doc_type p) f "document_type".
Proof.
  destruct (guarded_check_cases f "field" (subfield p)) as [Hs _].
  destruct (guarded_check_cases f "document_type" (embedded_doc_type p))
    as [He _].
  simpl in Hs, He. unfold matches_field. simpl.
  destruct (ne (name p) (field_name f)) eqn:Hn.
  { apply ne_true in Hn. split; [done | by intros [? _]]. }
  apply ne_false in Hn.
  destruct (ne (ftype p) _) eqn:Hf.
  { apply ne_true in Hf. split; [done | by intros (_ & ? & _)]. }
  apply ne_false in Hf. rewrite <- Hs, <- He.
  match goal with |- context [mbind _ ?m] => destruct m as [[]|] end; simpl.
  - split; [done | by intros (_ & _ & ? & _)].
  - match goal with |- context [mbind _ ?m] => destruct m as [[]|] end; simpl.
    + split; [done | by intros (_ & _ & _ & ?)].
    + done.
    + split; [done | by intros (_ & _ & _ & ?)].
  - split; [done | by intros (_ & _ & ? & _)].
Qed.

Lemma matches_field_raise_cases (p : t) (f : Field) (e : exception) :
  matches_field p f = Raise e <->
  name p = field_name f /\
  ftype p = Some (qualified_name (field_class f)) /\
  ((truthy_str (subfield p) = true /\ attr_raises f "field" e) \/
   (slot_agrees (subfield p) f "field" /\
    truthy_str (embedded_doc_type p) = true /\
    attr_raises f "document_type" e)).
Proof.
  destruct (guarded_check_cases f "field" (subfield p)) as [Hs Hs'].
  destruct (guarded_check_cases f "document_type" (embedded_doc_type p))
    as [_ He'].
  simpl in Hs, Hs', He'. unfold matches_field. simpl.
  destruct (ne (name p) (field_name f)) eqn:Hn.
  { apply ne_true in Hn. split; [done | by intros [? _]]. }
  apply ne_false in Hn.
  destruct (ne (ftype p) _) eqn:Hf.
  { apply ne_true in Hf. split; [done | by intros (_ & ? & _)]. }
  apply ne_false in Hf. rewrite <- Hs, <- (Hs' e), <- (He' e).
  match goal with |- context [mbind _ ?m] => destruct m as [[]|e1] end; simpl.
  - split; [done | by intros (_ & _ & [|[? _]])].
  - match goal with |- context [mbind _ ?m] => destruct m as [[]|e2] end;
      simpl.
    + split; [done | by intros (_ & _ & [|(_ & ?)])].
    + split; [done | by intros (_ & _ & [|(_ & ?)])].
    + split.
      * intros [= ->]. split; [done|]. split; [done|]. by right.
      * by intros (_ & _ & [|(_ & [= ->])]).
  - split.
    + intros [= ->]. split; [done|]. split; [done|]. by left.
    + by intros (_ & _ & [[= ->]|[? _]]).
Qed.

(** X1: [matches_field] answers [True] exactly when the names are equal,
    the projection's type is the class name of the descriptor, and each
    optional slot is either falsy or the class name of the descriptor's
    attribute. *)
Theorem matches_field_true_iff (p : t) (f : Field) :
  matches_field p f = Ok true <->
  name p = field_name f /\
  ftype p = Some (qualified_name (field_class f)) /\
  slot_agrees (subfield p) f "field" /\
  slot_agrees (embedded_doc_type p) f "document_type".
Proof. apply matches_field_true_cases. Qed.

(** X2: [matches_field] raises exactly when name and type agree and the
    first optional slot that is set and cannot be compared fails: the
    subfield's attribute is missing or unnameable, or the subfield agrees and
    the embedded document type's attribute is missing or unnameable.  The
    exception is that of the failing access. *)
Theorem matches_field_raises_iff (p : t) (f : Field) (e : exception) :
  matches_field p f = Raise e <->
  name p = field_name f /\
  ftype p = Some (qualified_name (field_class f)) /\
  ((truthy_str (subfield p) = true /\ attr_raises f "field" e) \/
   (slot_agrees (subfield p) f "field" /\
    truthy_str (embedded_doc_type p) = true /\
    attr_raises f "document_type" e)).
Proof. apply matches_field_raise_cases. Qed.

Lemma qualified_name_nonempty (c : class_ref) :
  nonempty (qualified_name c) = true.
Proof. unfold qualified_name. by destruct (cls_module c). Qed.

Lemma get_class_name_Ok (v : pyobj) (c : string) :
  etau.get_class_name v = Ok c -> truthy v = true /\ nonempty c = true.
Proof.
  destruct v; simpl; intros [= <-]; split;
    auto using qualified_name_nonempty.
Qed.

Lemma get_attr_repr_named (f : Field) (a : string) (v : pyobj) (c : string) :
  field_attrs f !! a = Some v -> etau.get_class_name v = Ok c ->
  _get_attr_repr f a = Ok (Some c).
Proof.
  intros Hv Hc. unfold _get_attr_repr, getattr_default. simpl.
  rewrite Hv. destruct (get_class_name_Ok _ _ Hc) as [-> _].
  by rewrite Hc.
Qed.

Lemma from_field_inv (f : Field) (p : t) :
  from_field f = Ok p ->
  name p = field_name f /\
  ftype p = Some (qualified_name (field_class f)) /\
  _get_attr_repr f "field" = Ok (subfield p) /\
  _get_attr_repr f "document_type" = Ok (embedded_doc_type p).
Proof.
  unfold from_field. simpl.
  destruct (_get_attr_repr f "field"); simpl; [|done].
  destruct (_get_attr_repr f "document_type"); simpl; [|done].
  by intros [= <-].
Qed.

(** A slot that agrees with [g] and was computed from [g] agrees with every
    descriptor the projection of [g] agrees with. *)
Lemma slot_agrees_trans (s s' : pystr) (g h : Field) (a : string) :
  _get_attr_repr g a = Ok s' ->
  slot_agrees s g a -> slot_agrees s' h a -> slot_agrees s h a.
Proof.
  intros Hg [Hs | (v & c & Hv & Hc & ->)] Hh; [by left|].
  rewrite (get_attr_repr_named _ _ _ _ Hv Hc) in Hg.
  injection Hg as <-. destruct Hh as [Hh | Hh]; [|by right].
  simpl in Hh. destruct (get_class_name_Ok _ _ Hc) as [_ Hne]. congruence.
Qed.

(** X3: matching is transitive along projections: a projection that
    matches [g] matches every descriptor that the projection of [g]
    matches. *)
Theorem matches_field_trans (g h : Field) (p q : t) :
  from_field g = Ok q ->
  matches_field p g = Ok true -> matches_field q h = Ok true ->
  matches_field p h = Ok true.
Proof.
  intros Hq Hpg Hqh.
  apply from_field_inv in Hq as (Hqn & Hqt & Hqs & Hqe).
  apply matches_field_true_cases in Hpg as (Hn & Ht & Hs & He).
  apply matches_field_true_cases in Hqh as (Hn' & Ht' & Hs' & He').
  apply matches_field_true_cases. repeat split.
  - congruence.
  - congruence.
  - by eapply slot_agrees_trans.
  - by eapply slot_agrees_trans.
Qed.

Lemma matches_field_trans_witness :
  matches_field Samples.tags_any Samples.tags_of_ints = Ok true.
Proof.
  apply (matches_field_trans Samples.tags_untyped Samples.tags_of_ints
           Samples.tags_any Samples.tags_any);
    vm_compute; reflexivity.
Defined.

(** X4: [from_field] and [matches_field] read the attributes [field] and
    [document_type] and no other: setting any other attribute of the
    descriptor changes neither the projection nor the outcome of a match. *)
Theorem other_attributes_ignored (c : class_ref) (n : pystr)
    (attrs : gmap string pyobj) (k : string) (v : pyobj) :
  k ≠ "field" -> k ≠ "document_type" ->
  from_field (mkField c n (<[k:=v]> attrs)) = from_field (mkField c n attrs) /\
  forall p, matches_field p (mkField c n (<[k:=v]> attrs))
            = matches_field p (mkField c n attrs).
Proof.
  intros Hf Hd.
  unfold from_field, matches_field, _get_attr_repr, getattr, getattr_default.
  simpl. by rewrite !lookup_insert_ne.
Qed.

Lemma other_attributes_ignored_witness :
  from_field (mkField (Samples.fields "ListField") (Some "tags")
                (<["required" := PyNone]> {["field" := PyNone]}))
  = from_field Samples.tags_untyped.
Proof.
  refine (proj1 (other_attributes_ignored (Samples.fields "ListField")
            (Some "tags") {["field" := PyNone]} "required" PyNone _ _));
    discriminate.
Defined.

Lemma get_attr_repr_cases (f : Field) (a : string) (s : pystr) :
  _get_attr_repr f a = Ok s ->
  (s = None /\ missing_or_falsy f a) \/
  (exists v c, field_attrs f !! a = Some v /\
               etau.get_class_name v = Ok c /\ s = Some c /\
               truthy v = true /\ nonempty c = true).
Proof.
  unfold _get_attr_repr, getattr_default, missing_or_falsy. simpl.
  destruct (field_attrs f !! a) as [v|]; simpl.
  - destruct (truthy v) eqn:Hv; simpl.
    + destruct (etau.get_class_name v) as [c|] eqn:Hc; simpl; [|done].
      intros [= <-]. right. exists v, c.
      by destruct (get_class_name_Ok _ _ Hc).
    + intros [= <-]. left. split; [done|]. right. by exists v.
  - intros [= <-]. left. split; [done | by left].
Qed.

(** X16: a projection made by [from_field] has the name of the descriptor
    and the name of its class; each optional slot is [None], exactly when
    the attribute is missing or falsy, or else a non-empty string: no slot
    is ever the empty string. *)
Theorem from_field_slots (f : Field) (p : t) :
  from_field f = Ok p ->
  name p = field_name f /\
  ftype p = Some (qualified_name (field_class f)) /\
  (subfield p = None <-> missing_or_falsy f "field") /\
  (embedded_doc_type p = None <-> missing_or_falsy f "document_type") /\
  subfield p ≠ Some EmptyString /\
  embedded_doc_type p ≠ Some EmptyString /\
  ftype p ≠ Some EmptyString.
Proof.
  intros (Hn & Ht & Hs & He)%from_field_inv.
  assert (Hslot : forall a s, _get_attr_repr f a = Ok s ->
            (s = None <-> missing_or_falsy f a) /\ s ≠ Some EmptyString).
  { intros a s [[-> Hm] | (v & c & Hv & _ & -> & Htv & Hc)]%get_attr_repr_cases.
    - done.
    - split; [|by intros [= ->]]. split; [done|].
      intros [Hm | (v' & Hv' & Hf)]; congruence. }
  destruct (Hslot _ _ Hs) as [? ?], (Hslot _ _ He) as [? ?].
  repeat split; try tauto; try done.
  rewrite Ht. intros [= Hq].
  pose proof (qualified_name_nonempty (field_class f)) as Hne.
  by rewrite Hq in Hne.
Qed.

Lemma from_field_slots_witness :
  SampleFieldDocument.subfield Samples.tags_any ≠ Some EmptyString.
Proof.
  refine (proj1 (proj2 (proj2 (proj2 (proj2
            (from_field_slots Samples.tags_untyped Samples.tags_any _)))))).
  vm_compute. reflexivity.
Defined.

End SampleFieldDocument_matching.

(** ** SampleFieldDocument: schemas *)

Section SampleFieldDocument_schemas.

Import SampleFieldDocument.

Lemma get_attr_repr_returns_iff (f : Field) (a : string) :
  returns (_get_attr_repr f a) <-> attr_describable f a = true.
Proof.
  split; [|apply get_attr_repr_describable].
  unfold attr_describable, _get_attr_repr, returns. simpl.
  destruct (getattr_default f a PyNone) as [|s|c|g]; simpl; try done.
  destruct s; simpl; [done|]. by intros [? ?].
Qed.

(** X5: [from_field] returns exactly on the descriptors whose [field] and
    [document_type] are missing, falsy, or objects with a class; on any
    other it raises. *)
Theorem from_field_returns_iff (f : Field) :
  (returns (from_field f) <-> field_descriptor f) /\
  (raises (from_field f) <-> ~ field_descriptor f).
Proof.
  assert (H : returns (from_field f) <-> field_descriptor f).
  { split; [|apply from_field_returns].
    intros [p Hp]. apply from_field_inv in Hp as (_ & _ & Hs & He).
    split; apply get_attr_repr_returns_iff; eexists; eassumption. }
  split; [exact H|]. rewrite <- H. unfold returns, raises.
  destruct (from_field f) as [p|e].
  - split; [by intros [? ?] | intros []; eauto].
  - split; [by intros _ [? ?] | eauto].
Qed.

Lemma mapM_from_field_inv (vs : list Field) (l : list t) :
  mapM from_field vs = Ok l ->
  Forall2 (fun f p => from_field f = Ok p) vs l.
Proof.
  revert l. induction vs as [|f vs IH]; simpl; intros l.
  - intros [= <-]. constructor.
  - destruct (from_field f) as [p|] eqn:Hp; simpl; [|done].
    destruct (mapM from_field vs) as [ps|]; simpl; [|done].
    intros [= <-]. constructor; auto.
Qed.

Lemma list_from_field_schema_inv (d : list (string * Field)) (l : list t) :
  list_from_field_schema d = Ok l ->
  Forall2 (fun f p => from_field f = Ok p) (kept d) l.
Proof.
  unfold list_from_field_schema. rewrite from_fields_filter.
  apply mapM_from_field_inv.
Qed.

(** X6: a schema written with [list_from_field_schema] matches the schema
    it was written from: each projection of the list matches, by
    [matches_field], the kept descriptor at its place. *)
Theorem list_from_field_schema_matches
    (d : list (string * Field)) (l : list t) :
  list_from_field_schema d = Ok l ->
  Forall2 (fun f p => matches_field p f = Ok true) (kept d) l.
Proof.
  intros H. apply list_from_field_schema_inv in H.
  eapply Forall2_impl; [exact H|].
  intros f p. apply from_field_matches.
Qed.

Lemma list_from_field_schema_matches_witness :
  Forall2 (fun f p => matches_field p f = Ok true) (kept Samples.schema)
    [mk (Some "filepath") (Some "fiftyone.core.fields.StringField") None None;
     mk (Some "tags") (Some "fiftyone.core.fields.ListField")
        (Some "fiftyone.core.fields.StringField") None;
     mk (Some "ground_truth")
        (Some "fiftyone.core.fields.EmbeddedDocumentField") None
        (Some "fiftyone.core.labels.Detections")].
Proof.
  apply (list_from_field_schema_matches Samples.schema).
  vm_compute. reflexivity.
Defined.

(** X7: no projection returned by [list_from_field_schema] is named
    ["id"], and there are at most as many projections as entries. *)
Theorem list_from_field_schema_no_id
    (d : list (string * Field)) (l : list t) :
  list_from_field_schema d = Ok l ->
  Forall (fun p => name p ≠ Some "id") l /\ length l <= length d.
Proof.
  intros H. apply list_from_field_schema_inv in H. split.
  - assert (Hk : Forall (fun f => field_name f ≠ Some "id") (kept d)).
    { apply Forall_forall. intros f Hf. unfold kept in Hf.
      by apply list_elem_of_filter in Hf as [? _]. }
    induction H as [|f p fs ps Hp _ IH]; [constructor|].
    apply Forall_cons in Hk as [Hf Hk]. constructor; [|by apply IH].
    by rewrite (from_field_name _ _ Hp).
  - rewrite <- (Forall2_length _ _ _ H). unfold kept.
    rewrite <- (length_fmap snd d). apply length_filter.
Qed.

Lemma list_from_field_schema_no_id_witness :
  Forall (fun p => name p ≠ Some "id")
    [mk (Some "filepath") (Some "fiftyone.core.fields.StringField") None None;
     mk (Some "tags") (Some "fiftyone.core.fields.ListField")
        (Some "fiftyone.core.fields.StringField") None] /\
  2 <= length Samples.crossed_schema.
Proof.
  apply (list_from_field_schema_no_id Samples.crossed_schema).
  vm_compute. reflexivity.
Defined.

Lemma list_from_field_schema_app_eq (d1 d2 : list (string * Field)) :
  list_from_field_schema (d1 ++ d2)
  = l1 ← list_from_field_schema d1;
    l2 ← list_from_field_schema d2;
    Ok (l1 ++ l2).
Proof.
  unfold list_from_field_schema. rewrite fmap_app. apply from_fields_app.
Qed.

(** X8: the projections of a schema made of two parts are those of the
    first part followed by those of the second, and an exception in the
    first part wins. *)
Theorem list_from_field_schema_app (d1 d2 : list (string * Field)) :
  list_from_field_schema (d1 ++ d2)
  = l1 ← list_from_field_schema d1;
    l2 ← list_from_field_schema d2;
    Ok (l1 ++ l2).
Proof. apply list_from_field_schema_app_eq. Qed.

(** X9: [list_from_field_schema] raises exactly when some entry whose
    descriptor is not named ["id"] has no projection while all kept entries
    before it have one; the exception is that of [from_field] on that
    entry. *)
Theorem list_from_field_schema_raises_iff
    (d : list (string * Field)) (e : exception) :
  list_from_field_schema d = Raise e <->
  exists d1 k f d2,
    d = d1 ++ (k, f) :: d2 /\
    returns (list_from_field_schema d1) /\
    field_name f ≠ Some "id" /\
    from_field f = Raise e.
Proof.
  split.
  - unfold list_from_field_schema.
    induction d as [|[k f] d IH]; [done|]. rewrite fmap_cons. simpl.
    destruct (ne (field_name f) (Some "id")) eqn:Hne.
    + apply ne_true in Hne. destruct (from_field f) as [p|e'] eqn:Hp; simpl.
      * destruct (from_fields (d.*2)) as [ps|e'] eqn:Hd; simpl; [done|].
        intros [= ->].
        destruct (IH eq_refl) as (d1 & k' & f' & d2 & -> & [l1 Hl1] & ? & ?).
        exists ((k, f) :: d1), k', f', d2. split; [done|].
        split; [|done]. exists (p :: l1).
        unfold list_from_field_schema in *. rewrite fmap_cons. simpl.
        apply ne_true in Hne. by rewrite Hne, Hp, Hl1.
      * intros [= ->]. exists [], k, f, d. split; [done|].
        split; [by exists [] | done].
    + intros Hd.
      destruct (IH Hd) as (d1 & k' & f' & d2 & -> & [l1 Hl1] & ? & ?).
      exists ((k, f) :: d1), k', f', d2. split; [done|].
      split; [|done]. exists l1.
      unfold list_from_field_schema in *. rewrite fmap_cons. simpl.
      by rewrite Hne.
  - intros (d1 & k & f & d2 & -> & [l1 Hl1] & Hne & Hf).
    rewrite list_from_field_schema_app_eq, Hl1. simpl.
    unfold list_from_field_schema. rewrite fmap_cons. simpl.
    apply ne_true in Hne. by rewrite Hne, Hf.
Qed.

End SampleFieldDocument_schemas.

(** ** fiftyone.utils.transformers: strings *)

Section transformers_strings.

Import transformers.

Lemma append_nil (r : string) : EmptyString +:+ r = r.
Proof. reflexivity. Qed.

Lemma append_cons (a : Ascii.ascii) (s r : string) :
  String a s +:+ r = String a (s +:+ r).
Proof. reflexivity. Qed.

Lemma prefix_empty (s : string) : String.prefix EmptyString s = true.
Proof. by destruct s. Qed.

Lemma prefix_trans (p q s : string) :
  String.prefix p q = true -> String.prefix q s = true ->
  String.prefix p s = true.
Proof.
  revert q s. induction p as [|a p IH]; intros q s; [by destruct s|].
  destruct q as [|b q]; [done|]. destruct s as [|c s]; [done|]. simpl.
  destruct (Ascii.ascii_dec a b) as [->|]; [|done].
  destruct (Ascii.ascii_dec b c) as [->|]; [|done].
  apply IH.
Qed.

(** Where a string occurs, its prefixes occur. *)
Lemma contains_prefix (p q s : string) :
  String.prefix p q = true -> contains q s = true -> contains p s = true.
Proof.
  intros Hpq. induction s as [|c s IH]; cbn [contains].
  - rewrite !orb_false_r. by apply prefix_trans.
  - intros [H|H]%orb_true_iff; apply orb_true_iff.
    + left. by eapply prefix_trans.
    + right. by apply IH.
Qed.

Lemma contains_cons_false (sep : string) (a : Ascii.ascii) (s : string) :
  contains sep (String a s) = false ->
  String.prefix sep (String a s) = false /\ contains sep s = false.
Proof. cbn [contains]. by intros [? ?]%orb_false_iff. Qed.

(** Without a separator there is one piece, the string itself. *)
Lemma split_go_none (sep s : string) :
  contains sep s = false -> split_go sep 0 s = (s, []).
Proof.
  induction s as [|a s IH]; [done|].
  intros [Hp Hs]%contains_cons_false.
  cbn [split_go]. rewrite Hp, (IH Hs). done.
Qed.

Lemma replace_none (old new s : string) :
  contains old s = false -> replace old new s = s.
Proof.
  unfold replace. induction s as [|a s IH]; [done|].
  intros [Hp Hs]%contains_cons_false.
  cbn [replace_go]. rewrite Hp, (IH Hs). done.
Qed.

(** The last piece of a split at dots is what follows the last dot. *)
Lemma split_go_dot_last (a t : string) :
  contains "." t = false ->
  exists p ps, split_go "." 0 (a +:+ "." +:+ t) = (p, ps ++ [t]).
Proof.
  intros Ht. induction a as [|c a (p & ps & IH)].
  - exists EmptyString, [].
    rewrite append_nil, append_cons, append_nil.
    cbn [split_go String.prefix String.length Nat.sub].
    destruct (Ascii.ascii_dec _ _); [|done].
    by rewrite prefix_empty, (split_go_none _ _ Ht).
  - rewrite append_cons.
    cbn [split_go String.prefix String.length Nat.sub].
    destruct (Ascii.ascii_dec _ c); rewrite ?prefix_empty, IH.
    + by exists EmptyString, (p :: ps).
    + by exists (String c p), ps.
Qed.

Lemma split_dot_last (a t : string) :
  contains "." t = false -> last (split "." (a +:+ "." +:+ t)) = t.
Proof.
  intros Ht. destruct (split_go_dot_last a t Ht) as (p & ps & H).
  unfold split, last. rewrite H.
  change (p :: ps ++ [t]) with ((p :: ps) ++ [t]). apply last_last.
Qed.

Lemma substring_append (n r : string) :
  substring 0 (String.length n) (n +:+ r) = n.
Proof.
  induction n as [|a n IH]; [by destruct r|].
  rewrite append_cons. simpl. by rewrite IH.
Qed.

Lemma length_append (n r : string) :
  String.length (n +:+ r) = String.length n + String.length r.
Proof.
  induction n as [|a n IH]; [done|]. rewrite append_cons. simpl.
  by rewrite IH.
Qed.

Lemma drop_last2_append (n : string) (a b : Ascii.ascii) :
  drop_last2 (n +:+ String a (String b EmptyString)) = n.
Proof.
  unfold drop_last2. rewrite length_append. simpl.
  replace (String.length n + 2 - 2) with (String.length n) by lia.
  apply substring_append.
Qed.

Lemma contains_dot_quote (n : string) :
  contains "." (n +:+ "'>") = contains "." n.
Proof.
  induction n as [|a n IH]; [done|].
  rewrite append_cons. cbn [contains String.prefix].
  by rewrite IH, !prefix_empty.
Qed.

(** Closes the comparisons of characters that a prefix test leaves. *)
Ltac prefix_cases :=
  rewrite ?append_cons, ?append_nil; cbn [String.prefix];
  repeat (destruct (Ascii.ascii_dec _ _); subst; try discriminate);
  rewrite ?prefix_empty; try done.

(** An occurrence of ["For"] cannot begin in [x] and end in a ["For"] that
    follows [x]; likewise for ["Model"]. *)
Lemma prefix_For_append (x r : string) :
  x ≠ EmptyString ->
  String.prefix "For" (x +:+ "For" +:+ r) = String.prefix "For" x.
Proof.
  intros Hx. destruct x as [|a [|b [|c x]]]; [done|..]; prefix_cases.
Qed.

Lemma prefix_Model_append (x r : string) :
  x ≠ EmptyString ->
  String.prefix "Model" (x +:+ "Model" +:+ r) = String.prefix "Model" x.
Proof.
  intros Hx. destruct x as [|a [|b [|c [|d [|e x]]]]]; [done|..];
    prefix_cases.
Qed.

Lemma prefix_append (p r : string) : String.prefix p (p +:+ r) = true.
Proof.
  induction p as [|a p IH]; [apply prefix_empty|].
  rewrite append_cons. cbn [String.prefix].
  by destruct (Ascii.ascii_dec a a).
Qed.

Lemma first_split (sep s : string) :
  first (split sep s) = (split_go sep 0 s).1.
Proof. unfold first, split. by destruct (split_go sep 0 s). Qed.

Lemma split_go_at_sep (sep s : string) :
  s ≠ EmptyString -> String.prefix sep s = true ->
  (split_go sep 0 s).1 = EmptyString.
Proof.
  destruct s as [|a s]; [done|]. intros _ H. cbn [split_go]. rewrite H.
  by destruct (split_go _ _ _).
Qed.

(** The first piece of a split at ["For"] is what precedes the first
    ["For"]. *)
Lemma split_For_first (x r : string) :
  contains "For" x = false ->
  first (split "For" (x +:+ "For" +:+ r)) = x.
Proof.
  rewrite first_split. induction x as [|a x IH].
  - intros _. rewrite append_nil.
    apply split_go_at_sep; [done | apply prefix_append].
  - intros [Hp Hx]%contains_cons_false. specialize (IH Hx).
    rewrite <- (prefix_For_append _ r) in Hp by done.
    rewrite (append_cons a x) in *. cbn [split_go]. rewrite Hp.
    destruct (split_go "For" 0 (x +:+ "For" +:+ r)) as [p ps].
    simpl in *. by rewrite IH.
Qed.

Lemma split_For_none (x : string) :
  contains "For" x = false -> first (split "For" x) = x.
Proof. intros H. unfold first, split. by rewrite (split_go_none _ _ H). Qed.

(** Removing ["Model"] from a name that ends with its only ["Model"]. *)
Lemma replace_Model_suffix (x : string) :
  contains "Model" x = false ->
  replace "Model" EmptyString (x +:+ "Model") = x.
Proof.
  unfold replace. induction x as [|a x IH].
  - intros _. vm_compute. reflexivity.
  - intros [Hp Hx]%contains_cons_false. specialize (IH Hx).
    rewrite <- (prefix_Model_append _ EmptyString) in Hp by done.
    change ("Model" +:+ EmptyString) with "Model" in Hp.
    rewrite (append_cons a x) in *. cbn [replace_go].
    by rewrite Hp, IH.
Qed.

End transformers_strings.

(** ** fiftyone.utils.transformers: conversion *)

Section transformers_conversion.

Import transformers.

Context {Model Processor Labels : Type}.
Variable type_str : Model -> string.
Variable model_str : Model -> string.
Variable id2label : Model -> Labels.
Variable from_pretrained : wrapper_class -> pystr -> res Model.
Variable AutoImageProcessor_from_pretrained : Model -> res Processor.
Variable namespace : gset string.
Variable processor_from_pretrained : string -> Model -> res Processor.

Local Abbreviation type_string := (_get_model_type_string type_str).
Local Abbreviation fallback :=
  (_get_image_processor_fallback type_str namespace
     processor_from_pretrained).
Local Abbreviation get_image_processor :=
  (_get_image_processor type_str AutoImageProcessor_from_pretrained
     namespace processor_from_pretrained).
Local Abbreviation init_wrapper :=
  (init type_str id2label from_pretrained AutoImageProcessor_from_pretrained
     namespace processor_from_pretrained).
Local Abbreviation convert :=
  (convert_transformers_model type_str model_str id2label from_pretrained
     AutoImageProcessor_from_pretrained namespace processor_from_pretrained).
Local Abbreviation unsupported model :=
  (ValueError ("Unsupported model type; cannot convert "
               +:+ model_str model +:+ " to a FiftyOne model")).

(** X10: for a class defined in a module, whose name has no dot, the model
    type string is the class name: of [<class 'pkg.mod.Name'>] it is
    [Name]. *)
Theorem model_type_string_of_class (m : Model) (pre n : string) :
  type_str m = pre +:+ "." +:+ n +:+ "'>" ->
  contains "." n = false ->
  type_string m = n.
Proof.
  intros Hm Hn. unfold _get_model_type_string. rewrite Hm.
  rewrite split_dot_last by (by rewrite contains_dot_quote).
  apply drop_last2_append.
Qed.

Lemma init_config_of_model (c : wrapper_class) (m : Model) :
  init_wrapper c (config_of_model m)
  = p ← get_image_processor m;
    Return (mkWrapper c (config_of_model m) m p
              match c with
              | FiftyOneTransformerForSemanticSegmentation =>
                  Some (id2label m)
              | _ => None
              end).
Proof. by destruct c. Qed.

(** The dispatcher either rejects the model or builds one wrapper around
    it; the wrapper is the base one exactly when the type string has no
    ["For"]. *)
Lemma convert_dispatch (m : Model) :
  convert m = Fail (unsupported m) \/
  exists c,
    convert m = init_wrapper c (config_of_model m) /\
    (c = FiftyOneTransformer <-> contains "For" (type_string m) = false).
Proof.
  unfold convert_transformers_model,
    _is_transformer_for_image_classification,
    _is_transformer_for_object_detection,
    _is_transformer_for_semantic_segmentation,
    _is_transformer_base_model,
    _convert_transformer_for_image_classification,
    _convert_transformer_for_object_detection,
    _convert_transformer_for_semantic_segmentation,
    _convert_transformer_base_model.
  simpl.
  destruct (contains "ForImageClassification" _) eqn:Hc.
  { right. eexists. split; [done|].
    apply (contains_prefix "For") in Hc; [|done]. by rewrite Hc. }
  destruct (contains "ForObjectDetection" _) eqn:Hd.
  { right. eexists. split; [done|].
    apply (contains_prefix "For") in Hd; [|done]. by rewrite Hd. }
  destruct (contains "For" _) eqn:Hf; simpl.
  - destruct (contains "Segmentation" _); simpl.
    + right. eexists. split; [done|]. done.
    + rewrite andb_false_r. by left.
  - destruct (contains "Model" _); simpl.
    + right. eexists. split; done.
    + by left.
Qed.

(** X11: a model is rejected with [ValueError] when its type string has
    neither ["For"] nor ["Model"], and also when it has ["For"] but none of
    ["ForImageClassification"], ["ForObjectDetection"] and
    ["Segmentation"], whether or not it has ["Model"]; nothing is loaded. *)
Theorem convert_unsupported (m : Model) :
  let ms := type_string m in
  (contains "For" ms = false /\ contains "Model" ms = false) \/
  (contains "For" ms = true /\
   contains "ForImageClassification" ms = false /\
   contains "ForObjectDetection" ms = false /\
   contains "Segmentation" ms = false) ->
  convert m = Fail (unsupported m).
Proof.
  simpl. intros H.
  unfold convert_transformers_model,
    _is_transformer_for_image_classification,
    _is_transformer_for_object_detection,
    _is_transformer_for_semantic_segmentation,
    _is_transformer_base_model.
  simpl. destruct H as [[Hf Hm] | (Hf & Hc & Hd & Hs)].
  - destruct (contains "ForImageClassification" _) eqn:Hc.
    { apply (contains_prefix "For") in Hc; [congruence | done]. }
    destruct (contains "ForObjectDetection" _) eqn:Hd.
    { apply (contains_prefix "For") in Hd; [congruence | done]. }
    by rewrite Hf, Hm.
  - rewrite Hc, Hd, Hf, Hs. simpl. by rewrite andb_false_r.
Qed.

(** X12: a converted model is wrapped as it is: the wrapper holds the
    model that was given and the configuration made of it, its image
    processor is the one found for that model, it is the base wrapper
    exactly when the type string has no ["For"], and it has mask targets,
    the labels of the model, exactly when it is the segmentation wrapper. *)
Theorem convert_wraps_model (m : Model) (w : wrapper) :
  convert m = Return w ->
  model w = m /\
  config w = config_of_model m /\
  get_image_processor m = Return (image_processor w) /\
  (cls w = FiftyOneTransformer <-> contains "For" (type_string m) = false) /\
  mask_targets w
  = match cls w with
    | FiftyOneTransformerForSemanticSegmentation => Some (id2label m)
    | _ => None
    end.
Proof.
  destruct (convert_dispatch m) as [-> | (c & -> & Hc)]; [done|].
  rewrite init_config_of_model.
  destruct (get_image_processor m) as [p|]; simpl; [|done].
  by intros [= <-].
Qed.

(** X13: when conversion fails, it is with the dispatcher's [ValueError],
    or the automatic image processor failed and the exception is that of
    the fallback; the exception of the automatic image processor itself is
    never the one reported. *)
Theorem convert_failure (m : Model) (e : error) :
  convert m = Fail e ->
  e = unsupported m \/
  ((exists e0, AutoImageProcessor_from_pretrained m = Fail e0) /\
   fallback m = Fail e).
Proof.
  destruct (convert_dispatch m) as [-> | (c & -> & _)].
  - intros [= <-]. by left.
  - rewrite init_config_of_model. unfold _get_image_processor.
    destruct (AutoImageProcessor_from_pretrained m) as [p|e0]; simpl;
      [done|].
    destruct (fallback m) as [p|e1]; simpl; [done|].
    intros [= <-]. right. eauto.
Qed.

(** X14: the fallback looks the image processor class up under the text
    of the type string that precedes its first ["For"] (the whole type
    string when there is none), followed by ["ImageProcessor"], and raises
    [AttributeError] when the module has no such name. *)
Theorem fallback_class_name (m : Model) (x : string) :
  contains "For" x = false ->
  type_string m = x \/ (exists task, type_string m = x +:+ "For" +:+ task) ->
  fallback m
  = if bool_decide (x +:+ "ImageProcessor" ∈ namespace) then
      processor_from_pretrained (x +:+ "ImageProcessor") m
    else Fail (Builtin (AttributeError (x +:+ "ImageProcessor"))).
Proof.
  intros Hx H. unfold _get_image_processor_fallback.
  replace (first (split "For" _)) with x; [done|].
  unfold _get_model_type_string in H. destruct H as [-> | [task ->]].
  - by rewrite split_For_none.
  - by rewrite split_For_first.
Qed.

(** X15: [has_embeddings] asks for the classification and the detection
    class of the model family: the type string up to its first ["For"],
    without ["Model"].  For the type strings [xModel] and [xFor...], with
    neither word in [x], these are [xForImageClassification] and
    [xForObjectDetection]. *)
Theorem has_embeddings_family (w : @wrapper Model Processor Labels)
    (x : string) :
  contains "For" x = false ->
  contains "Model" x = false ->
  (type_string (model w) = x +:+ "Model" /\
   contains "For" (x +:+ "Model") = false) \/
  (exists task, type_string (model w) = x +:+ "For" +:+ task) ->
  has_embeddings type_str namespace w
  = bool_decide (x +:+ "ForImageClassification" ∈ namespace) ||
    bool_decide (x +:+ "ForObjectDetection" ∈ namespace).
Proof.
  intros Hf Hm H. unfold has_embeddings. cbv zeta.
  replace (replace "Model" EmptyString _) with x; [done|].
  unfold _get_model_type_string in H. destruct H as [[-> Hf'] | [task ->]].
  - by rewrite split_For_none, replace_Model_suffix.
  - by rewrite split_For_first, replace_none.
Qed.

End transformers_conversion.

(** *** On the sample hub *)

Lemma model_type_string_of_class_witness :
  transformers._get_model_type_string id transformers.Samples.vit_model
  = "ViTModel".
Proof.
  apply (model_type_string_of_class id transformers.Samples.vit_model
           "<class 'transformers.models.vit.modeling_vit" "ViTModel");
    reflexivity.
Defined.

Lemma convert_unsupported_witness :
  transformers.Samples.convert transformers.Samples.maskformer_model
  = transformers.Fail
      (transformers.ValueError
         ("Unsupported model type; cannot convert "
          +:+ transformers.Samples.maskformer_model
          +:+ " to a FiftyOne model")).
Proof.
  apply (convert_unsupported id id (fun _ => ()) transformers.Samples.no_model
           transformers.Samples.auto transformers.Samples.names
           transformers.Samples.load transformers.Samples.maskformer_model).
  right. repeat split; vm_compute; reflexivity.
Defined.

Lemma convert_wraps_model_witness :
  transformers.model transformers.Samples.vit_wrapper
  = transformers.Samples.vit_model /\
  transformers.cls transformers.Samples.vit_wrapper
  = transformers.FiftyOneTransformer.
Proof.
  destruct (convert_wraps_model id id (fun _ => ())
              transformers.Samples.no_model transformers.Samples.auto
              transformers.Samples.names transformers.Samples.load
              transformers.Samples.vit_model transformers.Samples.vit_wrapper)
    as (Hm & _ & _ & Hc & _).
  - vm_compute. reflexivity.
  - split; [exact Hm|]. apply Hc. vm_compute. reflexivity.
Defined.

Lemma convert_failure_witness :
  transformers.Builtin (AttributeError "DetrImageProcessor")
  = transformers.ValueError
      ("Unsupported model type; cannot convert "
       +:+ transformers.Samples.detr_detector +:+ " to a FiftyOne model") \/
  ((exists e0,
      transformers.Samples.auto transformers.Samples.detr_detector
      = transformers.Fail e0) /\
   transformers._get_image_processor_fallback id transformers.Samples.names
     transformers.Samples.load transformers.Samples.detr_detector
   = transformers.Fail
       (transformers.Builtin (AttributeError "DetrImageProcessor"))).
Proof.
  apply (convert_failure id id (fun _ => ()) transformers.Samples.no_model
           transformers.Samples.auto transformers.Samples.names
           transformers.Samples.load transformers.Samples.detr_detector).
  vm_compute. reflexivity.
Defined.

Lemma fallback_class_name_witness :
  transformers._get_image_processor_fallback id transformers.Samples.names
    transformers.Samples.load transformers.Samples.detr_detector
  = if bool_decide ("Detr" +:+ "ImageProcessor" ∈ transformers.Samples.names)
    then transformers.Samples.load ("Detr" +:+ "ImageProcessor")
           transformers.Samples.detr_detector
    else transformers.Fail
           (transformers.Builtin
              (AttributeError ("Detr" +:+ "ImageProcessor"))).
Proof.
  apply (fallback_class_name id transformers.Samples.names
           transformers.Samples.load transformers.Samples.detr_detector
           "Detr").
  - reflexivity.
  - right. exists "ObjectDetection". vm_compute. reflexivity.
Defined.

Lemma has_embeddings_family_witness :
  transformers.has_embeddings id transformers.Samples.names
    transformers.Samples.vit_wrapper
  = bool_decide ("ViT" +:+ "ForImageClassification"
                 ∈ transformers.Samples.names) ||
    bool_decide ("ViT" +:+ "ForObjectDetection"
                 ∈ transformers.Samples.names).
Proof.
  apply (has_embeddings_family id transformers.Samples.names
           transformers.Samples.vit_wrapper "ViT").
  - reflexivity.
  - reflexivity.
  - left. split; vm_compute; reflexivity.
Defined.
